(** * Resource tree item of the project explorer: view state and commands

    A shallow embedding of the [Resource] component, its
    [useResourceLifecycle] hook, the [ResourceStatusNode] and [ResourceIcon]
    sub-components, and of the [renderedIf] helper of
    [cfx/utils/convenience.tsx].

    - React state cells and the outgoing message channel are threaded
      explicitly through a [UiState]; an event handler ([() => void]) is a
      [UiState -> UiState] function.
    - The mobx stores ([ServerState], [StatusState]) are read-only for the
      component: a render receives a snapshot of them.
    - JS objects used as dictionaries ([watchCommands], [project.resources],
      the status cache, component props) are [gmap]s.
    - [React.useCallback] and [React.useMemo] give what their bodies compute
      from the values of the current render: each value a body closes over
      is in its dependency list, or is a callback whose own dependencies
      are in that list.  [useResourceLifecycle] is the hook without its
      cells; [useResourceLifecycleMemo] is the hook with them, and the
      section on memoisation relates the two.
    - Of the tree rendered by [Resource], the view keeps the context menu,
      the icon, the title, the status node and the three modals; styling,
      drag and drop and the children of the item are left out. *)

From stdpp Require Import gmap strings list fin_maps.

Open Scope string_scope.
Open Scope list_scope.

(** ** Values consumed from other modules *)

(** Modelled from the spec: the endpoint identifiers of [shared/api.events]
    ([projectApi], [serverApi]); only the four used by the component. *)
Inductive ApiEvent :=
| project_setResourceConfig
| server_startResource
| server_stopResource
| server_restartResource.

Module projectApi.
Definition setResourceConfig : ApiEvent := project_setResourceConfig.
End projectApi.

Module serverApi.
Definition startResource : ApiEvent := server_startResource.
Definition stopResource : ApiEvent := server_stopResource.
Definition restartResource : ApiEvent := server_restartResource.
End serverApi.

(** Modelled from the spec: the icon constants of [constants/icons] and the
    three [react-icons/bs] glyphs, as opaque tokens. *)
Inductive Icon :=
| deleteIcon | disabledResourceIcon | enabledResourceIcon | refreshIcon
| renameIcon | resourceIcon | startIcon | stopIcon
| BsCheckBox | BsFillEyeFill | BsSquare.

(** Modelled from the spec: the CSS-module class names ([itemsStyles], [s]). *)
Inductive StyleClass :=
| itemStatus | itemStatusEntry | itemIcon | s_running.

(** [ProjectResource] (shared/project.types): the persisted per-resource
    settings.  A field that is not set reads as [undefined], here [None]. *)
Record ProjectResource := {
  enabled : option bool;
  restartOnChange : option bool;
}.

(** [ProjectSetResourceConfigRequest] (shared/api.requests). *)
Record ProjectSetResourceConfigRequest := {
  resourceName : string;
  config : ProjectResource;
}.

(** One entry of [ResourceStatus.watchCommands]. *)
Record WatchCommand := { running : bool }.

Record ResourceStatus := {
  watchCommands : gmap string WatchCommand;
}.

(** The connectivity store, as seen by one render. *)
Record ServerStateT := {
  isUp : bool;
  isResourceRunning : string -> bool;
}.

(** Options inherited through [ProjectExplorerItemContext]. *)
Record ProjectExplorerItemContext := {
  disableAssetDelete : option bool;
  disableAssetRename : option bool;
}.

(** ** JavaScript primitives used by the component *)

(** [!!v] for a value that is [undefined] or a boolean. *)
Definition toBoolean (v : option bool) : bool :=
  match v with
  | Some b => b
  | None => false
  end.

(** [obj?.field]: [undefined] when the object itself is missing. *)
Definition optionalChain {A B} (obj : option A) (field : A -> option B) : option B :=
  match obj with
  | Some o => field o
  | None => None
  end.

(** Truthiness of a number used as a condition ([arr.length ? a : b]). *)
Definition numberIsTruthy (n : nat) : bool := negb (n =? 0)%nat.

(** [Object.values(obj)].  The enumeration order of the [gmap] is not the
    insertion order of JS; the component only takes lengths of this array. *)
Definition Object_values {V} (obj : gmap string V) : list V :=
  (map_to_list obj).*2.

(** [arr.push(x, y, ...)]. *)
Definition push {A} (arr : list A) (items : list A) : list A := (arr ++ items)%list.

(** ** Local UI state and the dispatch channel *)

Inductive ApiPayload :=
| PayloadResourceName (name : string)
| PayloadSetResourceConfig (request : ProjectSetResourceConfigRequest).

(** The React state cells behind the three [useOpenFlag] calls.  A cell is
    [None] until it has been written; reading it then gives the default
    passed to the hook. *)
Inductive FlagCell := deleterCell | renamerCell | commandsOutputCell.

#[global] Instance FlagCell_eq_dec : EqDecision FlagCell.
Proof. solve_decision. Defined.

Record OpenFlagCells := {
  deleterOpenCell : option bool;
  renamerOpenCell : option bool;
  commandsOutputOpenCell : option bool;
}.

Record UiState := {
  cells : OpenFlagCells;
  outbox : list (ApiEvent * ApiPayload);
}.

Definition Handler := UiState -> UiState.

Definition readCell (c : FlagCell) (cs : OpenFlagCells) : option bool :=
  match c with
  | deleterCell => deleterOpenCell cs
  | renamerCell => renamerOpenCell cs
  | commandsOutputCell => commandsOutputOpenCell cs
  end.

Definition writeCell (c : FlagCell) (v : bool) (cs : OpenFlagCells) : OpenFlagCells :=
  match c with
  | deleterCell =>
      {| deleterOpenCell := Some v;
         renamerOpenCell := renamerOpenCell cs;
         commandsOutputOpenCell := commandsOutputOpenCell cs |}
  | renamerCell =>
      {| deleterOpenCell := deleterOpenCell cs;
         renamerOpenCell := Some v;
         commandsOutputOpenCell := commandsOutputOpenCell cs |}
  | commandsOutputCell =>
      {| deleterOpenCell := deleterOpenCell cs;
         renamerOpenCell := renamerOpenCell cs;
         commandsOutputOpenCell := Some v |}
  end.

(** The component as first mounted: nothing written, nothing sent. *)
Definition mounted : UiState :=
  {| cells := {| deleterOpenCell := None;
                 renamerOpenCell := None;
                 commandsOutputOpenCell := None |};
     outbox := [] |}.

(** Modelled from the spec: [sendApiMessage] of [utils/api], the
    fire-and-forget dispatch channel [send(endpointId, payload) -> void].
    A call is recorded at the end of the outbox and nothing else changes. *)
Definition sendApiMessage (event : ApiEvent) (payload : ApiPayload) : Handler :=
  fun st => {| cells := cells st; outbox := outbox st ++ [(event, payload)] |}.

(** Modelled from the spec: [useOpenFlag] of [utils/hooks], an independent
    boolean toggle returning the flag with its own open/close pair; [open]
    sets the flag, [close] clears it, and neither does anything else. *)
Definition useOpenFlag (cell : FlagCell) (defaultValue : bool) (st : UiState)
  : bool * Handler * Handler :=
  (default defaultValue (readCell cell (cells st)),
   fun st' => {| cells := writeCell cell true (cells st'); outbox := outbox st' |},
   fun st' => {| cells := writeCell cell false (cells st'); outbox := outbox st' |}).

(** ** Context menu entries *)

Record ContextMenuItem := {
  id : string;
  icon : Icon;
  text : string;
  disabled : option bool;
  onClick : Handler;
}.

Inductive ContextMenuEntry :=
| ContextMenuItemSeparator
| MenuItem (item : ContextMenuItem).

Definition ContextMenuItemsCollection := list ContextMenuEntry.

(** ** Rendered output *)

#[warnings="-register-all"]
Inductive ReactNode :=
| RNull
| RText (s : string)
| RNumber (n : nat)
| RIcon (i : Icon)
| RElement (tag : string) (className : list StyleClass) (title : option string)
    (children : list ReactNode).

(** [classnames(base, { [extra]: cond })]. *)
Definition classnames (base : StyleClass) (extra : StyleClass) (cond : bool)
  : list StyleClass :=
  if cond then [base; extra] else [base].

(** ** [ResourceStatusNode] *)

Definition watchCommandsNode (resourceStatus : ResourceStatus) : ReactNode :=
  let watchCommands := Object_values (watchCommands resourceStatus) in
  if numberIsTruthy (length watchCommands)
  then RElement "div" [itemStatusEntry] (Some "Watch commands: running / declared")
         [RIcon BsFillEyeFill; RText " ";
          RNumber (length (List.filter (fun cmd => running cmd) watchCommands));
          RText "/";
          RNumber (length watchCommands)]
  else RNull.

Definition ResourceStatusNode (resourceStatus : ResourceStatus) : ReactNode :=
  RElement "div" [itemStatus] None [watchCommandsNode resourceStatus].

(** ** [ResourceIcon] *)

Definition ResourceIcon (enabled running : bool) : ReactNode :=
  let icon := if enabled then enabledResourceIcon else resourceIcon in
  let iconTitle := if enabled then "Enabled" else "Disabled" in
  let iconsClassName := classnames itemIcon s_running running in
  RElement "span" iconsClassName (Some iconTitle) [RIcon icon].

(** ** [useResourceLifecycle] *)

Definition handleToggleEnabled (resourceName : string) (isEnabled : bool) : Handler :=
  let request :=
    {| resourceName := resourceName;
       config := {| enabled := Some (negb isEnabled); restartOnChange := None |} |} in
  sendApiMessage projectApi.setResourceConfig (PayloadSetResourceConfig request).

Definition handleToggleAutorestartEnabled (resourceName : string)
    (isAutorestartOnChangeEnabled : bool) : Handler :=
  let request :=
    {| resourceName := resourceName;
       config := {| enabled := None;
                    restartOnChange := Some (negb isAutorestartOnChangeEnabled) |} |} in
  sendApiMessage projectApi.setResourceConfig (PayloadSetResourceConfig request).

Definition handleRestart (resourceName : string) : Handler :=
  sendApiMessage serverApi.restartResource (PayloadResourceName resourceName).

Definition handleStop (resourceName : string) : Handler :=
  sendApiMessage serverApi.stopResource (PayloadResourceName resourceName).

Definition handleStart (resourceName : string) : Handler :=
  sendApiMessage serverApi.startResource (PayloadResourceName resourceName).

(** The body of the [React.useMemo] call that computes
    [lifecycleContextMenuItems], as a function of the values it closes
    over. *)
Definition makeLifecycleContextMenuItems
    (serverIsNotUp : bool) (resourceName : string) (resourceStatus : ResourceStatus)
    (resourceIsRunning isEnabled isAutorestartOnChangeEnabled : bool)
    (openCommandsOutput : Handler) : ContextMenuItemsCollection :=
  let serverRelatedItems : ContextMenuItemsCollection := [] in
  let serverRelatedItems :=
    if resourceIsRunning
    then push serverRelatedItems
           [MenuItem {| id := "stop"; icon := stopIcon; text := "Stop";
                        disabled := Some serverIsNotUp;
                        onClick := handleStop resourceName |};
            MenuItem {| id := "restart"; icon := refreshIcon; text := "Restart";
                        disabled := Some serverIsNotUp;
                        onClick := handleRestart resourceName |}]
    else push serverRelatedItems
           [MenuItem {| id := "Start"; icon := startIcon; text := "Start";
                        disabled := Some serverIsNotUp;
                        onClick := handleStart resourceName |}] in
  let fxdkCommandsItems : ContextMenuItemsCollection := [] in
  let fxdkCommandsItems :=
    if numberIsTruthy (length (Object_values (watchCommands resourceStatus)))
    then push fxdkCommandsItems
           [ContextMenuItemSeparator;
            MenuItem {| id := "open-watch-commands-output"; icon := BsFillEyeFill;
                        text := "Watch commands output";
                        disabled := None;
                        onClick := openCommandsOutput |}]
    else fxdkCommandsItems in
  (serverRelatedItems
  ++ [ContextMenuItemSeparator;
      MenuItem {| id := "toggle-enabled";
                  icon := if isEnabled then disabledResourceIcon else enabledResourceIcon;
                  text := if isEnabled then "Disable resource" else "Enable resource";
                  disabled := None;
                  onClick := handleToggleEnabled resourceName isEnabled |};
      MenuItem {| id := "toggle-autorestart-enabled";
                  icon := if isAutorestartOnChangeEnabled then BsSquare else BsCheckBox;
                  text := if isAutorestartOnChangeEnabled
                          then "Disable restart on change"
                          else "Enable restart on change";
                  disabled := None;
                  onClick := handleToggleAutorestartEnabled resourceName
                               isAutorestartOnChangeEnabled |}]
  ++ fxdkCommandsItems)%list.

Record ResourceLifecycle := {
  resourceIsEnabled : bool;
  resourceIsRunning : bool;
  lifecycleContextMenuItems : ContextMenuItemsCollection;
  commandsOutputOpen : bool;
  closeCommandsOutput : Handler;
}.

(** [!!resourceConfig?.enabled] and [!!resourceConfig?.restartOnChange]. *)
Definition isEnabled (resourceConfig : option ProjectResource) : bool :=
  toBoolean (optionalChain resourceConfig enabled).

Definition isAutorestartOnChangeEnabled (resourceConfig : option ProjectResource) : bool :=
  toBoolean (optionalChain resourceConfig restartOnChange).

Definition useResourceLifecycle (ServerState : ServerStateT) (st : UiState)
    (resourceName : string) (resourceConfig : option ProjectResource)
    (resourceStatus : ResourceStatus) : ResourceLifecycle :=
  let '(commandsOutputOpen, openCommandsOutput, closeCommandsOutput) :=
    useOpenFlag commandsOutputCell false st in
  let serverIsNotUp := negb (isUp ServerState) in
  let resourceIsRunning := isResourceRunning ServerState resourceName in
  let isEnabled := isEnabled resourceConfig in
  let isAutorestartOnChangeEnabled := isAutorestartOnChangeEnabled resourceConfig in
  {| resourceIsEnabled := isEnabled;
     resourceIsRunning := resourceIsRunning;
     lifecycleContextMenuItems :=
       makeLifecycleContextMenuItems serverIsNotUp resourceName resourceStatus
         resourceIsRunning isEnabled isAutorestartOnChangeEnabled openCommandsOutput;
     commandsOutputOpen := commandsOutputOpen;
     closeCommandsOutput := closeCommandsOutput |}.

(** ** [Resource] *)

Record ProjectEntry := { name : string; path : string }.

Record ProjectData := { resources : gmap string ProjectResource }.

Record ProjectItemProps := { entry : ProjectEntry; project : ProjectData }.

(** What the hooks of [ProjectExplorer.hooks] hand to the component; their
    menu entries are spliced into the item's menu as they are. *)
Record ItemHooks := {
  contextMenuItems : ContextMenuItemsCollection;
  requiredContextMenuItems : ContextMenuItemsCollection;
  relocateTargetContextMenu : ContextMenuItemsCollection;
  expanded : bool;
}.

Definition defaultResourceStatus : ResourceStatus := {| watchCommands := ∅ |}.

(** Modelled from the spec: [StatusState.get(key, default)], which returns
    the default if the key is absent and the stored value otherwise. *)
Definition StatusState_get (statuses : gmap string ResourceStatus) (key : string)
    (defaultValue : ResourceStatus) : ResourceStatus :=
  default defaultValue (statuses !! key).

(** Props of the three modals ([ResourceDeleter], [ResourceRenamer],
    [ResourceCommandsOutputModal]). *)
Record ModalProps := {
  modalPath : option string;
  modalName : string;
  modalStatus : option ResourceStatus;
  onClose : Handler;
}.

(** [flag && <Modal ... />]. *)
Definition renderWhen (flag : bool) (props : ModalProps) : option ModalProps :=
  if flag then Some props else None.

Record ResourceView := {
  itemContextMenuItems : ContextMenuItemsCollection;
  iconNode : ReactNode;
  itemTitle : string;
  statusNode : ReactNode;
  childrenShown : bool;
  deleterModal : option ModalProps;
  renamerModal : option ModalProps;
  commandsOutputModal : option ModalProps;
}.

Definition Resource (ServerState : ServerStateT)
    (StatusState : gmap string ResourceStatus)
    (options : ProjectExplorerItemContext) (hooks : ItemHooks)
    (st : UiState) (props : ProjectItemProps) : ResourceView :=
  let entry := entry props in
  let project := project props in
  let resourceConfig := resources project !! name entry in
  let resourceStatus :=
    StatusState_get StatusState ("resource-" +:+ path entry) defaultResourceStatus in
  let '(deleterOpen, openDeleter, closeDeleter) := useOpenFlag deleterCell false st in
  let '(renamerOpen, openRenamer, closeRenamer) := useOpenFlag renamerCell false st in
  let lifecycle :=
    useResourceLifecycle ServerState st (name entry) resourceConfig resourceStatus in
  let itemContextMenuItems :=
    (lifecycleContextMenuItems lifecycle
     ++ [ContextMenuItemSeparator]
     ++ relocateTargetContextMenu hooks
     ++ [ContextMenuItemSeparator;
         MenuItem {| id := "delete"; icon := deleteIcon; text := "Delete resource";
                     disabled := disableAssetDelete options;
                     onClick := openDeleter |};
         MenuItem {| id := "rename"; icon := renameIcon; text := "Rename resource";
                     disabled := disableAssetRename options;
                     onClick := openRenamer |};
         ContextMenuItemSeparator]
     ++ contextMenuItems hooks
     ++ [ContextMenuItemSeparator]
     ++ requiredContextMenuItems hooks)%list in
  {| itemContextMenuItems := itemContextMenuItems;
     iconNode := ResourceIcon (resourceIsEnabled lifecycle) (resourceIsRunning lifecycle);
     itemTitle := name entry;
     statusNode := ResourceStatusNode resourceStatus;
     childrenShown := expanded hooks;
     deleterModal :=
       renderWhen deleterOpen
         {| modalPath := Some (path entry); modalName := name entry;
            modalStatus := None; onClose := closeDeleter |};
     renamerModal :=
       renderWhen renamerOpen
         {| modalPath := Some (path entry); modalName := name entry;
            modalStatus := None; onClose := closeRenamer |};
     commandsOutputModal :=
       renderWhen (commandsOutputOpen lifecycle)
         {| modalPath := None; modalName := name entry;
            modalStatus := Some resourceStatus;
            onClose := closeCommandsOutput lifecycle |} |}.

(** ** [renderedIf] (cfx/utils/convenience.tsx) *)

Module convenience.
Section renderedIf.

(** [Store] is the ambient state a precondition may read (or write) when it
    is called; [V] the type of prop values, a props object being a
    dictionary of them; [FC] the identity of a function component. *)
Context {Store V FC : Type}.

Inductive Rendered :=
| null
| createElement (type : FC) (props : gmap string V).

(** [{...props}]: a fresh object that receives every own entry of [props]. *)
Definition spread (props : gmap string V) : gmap string V :=
  list_to_map (map_to_list props).

Definition renderedIf (precondition : Store -> bool * Store) (Component : FC)
  : gmap string V -> Store -> Rendered * Store :=
  fun props store =>
    let '(ok, store') := precondition store in
    if negb ok then (null, store')
    else (createElement Component (spread props), store').

End renderedIf.
End convenience.

(** ** Memoisation across renders *)

(** A JS object or function as a dependency sees it: [Object.is] compares
    the [address], never the [target]. *)
Record Ref (A : Type) := { address : nat; target : A }.
Arguments address {A} _.
Arguments target {A} _.

(** One [React.useCallback] cell: the dependencies of the render that
    created the stored function, the identity of that function (the number
    of the render that created it) and the function. *)
Record CallbackCell (D : Type) := {
  cb_deps : D;
  cb_id : nat;
  cb_fn : Handler;
}.
Arguments cb_deps {D} _.
Arguments cb_id {D} _.
Arguments cb_fn {D} _.

(** [React.useCallback(fn, deps)] in render number [render]: the stored
    function is kept when every dependency is the same as before, and
    replaced by the new closure otherwise. *)
Definition useCallback {D} `{EqDecision D} (render : nat)
    (cell : option (CallbackCell D)) (fn : Handler) (deps : D) : CallbackCell D :=
  match cell with
  | Some c =>
      if decide (cb_deps c = deps) then c
      else {| cb_deps := deps; cb_id := render; cb_fn := fn |}
  | None => {| cb_deps := deps; cb_id := render; cb_fn := fn |}
  end.

(** One [React.useMemo] cell. *)
Record MemoCell (D A : Type) := {
  memo_deps : D;
  memo_value : A;
}.
Arguments memo_deps {D A} _.
Arguments memo_value {D A} _.

(** [React.useMemo(factory, deps)]. *)
Definition useMemo {D A} `{EqDecision D}
    (cell : option (MemoCell D A)) (factory : unit -> A) (deps : D) : MemoCell D A :=
  match cell with
  | Some c =>
      if decide (memo_deps c = deps) then c
      else {| memo_deps := deps; memo_value := factory tt |}
  | None => {| memo_deps := deps; memo_value := factory tt |}
  end.

(** The dependency list of the [lifecycleContextMenuItems] memo, in the
    order of the source: booleans and the string by value, the status object
    and the four functions by identity. *)
Record MenuDeps := {
  dep_serverIsNotUp : bool;
  dep_resourceName : string;
  dep_resourceStatus : nat;
  dep_resourceIsRunning : bool;
  dep_isEnabled : bool;
  dep_isAutorestartOnChangeEnabled : bool;
  dep_handleStop : nat;
  dep_handleRestart : nat;
  dep_handleStart : nat;
  dep_openCommandsOutput : nat;
}.

#[global] Instance MenuDeps_eq_dec : EqDecision MenuDeps.
Proof. solve_decision. Defined.

(** The body of the [lifecycleContextMenuItems] memo over the callbacks it
    closes over, whichever render created them. *)
Definition lifecycleMenuBody
    (serverIsNotUp : bool) (resourceStatus : ResourceStatus)
    (resourceIsRunning isEnabled isAutorestartOnChangeEnabled : bool)
    (handleStop handleRestart handleStart : Handler)
    (handleToggleEnabled handleToggleAutorestartEnabled : Handler)
    (openCommandsOutput : Handler) : ContextMenuItemsCollection :=
  let serverRelatedItems : ContextMenuItemsCollection := [] in
  let serverRelatedItems :=
    if resourceIsRunning
    then push serverRelatedItems
           [MenuItem {| id := "stop"; icon := stopIcon; text := "Stop";
                        disabled := Some serverIsNotUp;
                        onClick := handleStop |};
            MenuItem {| id := "restart"; icon := refreshIcon; text := "Restart";
                        disabled := Some serverIsNotUp;
                        onClick := handleRestart |}]
    else push serverRelatedItems
           [MenuItem {| id := "Start"; icon := startIcon; text := "Start";
                        disabled := Some serverIsNotUp;
                        onClick := handleStart |}] in
  let fxdkCommandsItems : ContextMenuItemsCollection := [] in
  let fxdkCommandsItems :=
    if numberIsTruthy (length (Object_values (watchCommands resourceStatus)))
    then push fxdkCommandsItems
           [ContextMenuItemSeparator;
            MenuItem {| id := "open-watch-commands-output"; icon := BsFillEyeFill;
                        text := "Watch commands output";
                        disabled := None;
                        onClick := openCommandsOutput |}]
    else fxdkCommandsItems in
  serverRelatedItems
  ++ [ContextMenuItemSeparator;
      MenuItem {| id := "toggle-enabled";
                  icon := if isEnabled then disabledResourceIcon else enabledResourceIcon;
                  text := if isEnabled then "Disable resource" else "Enable resource";
                  disabled := None;
                  onClick := handleToggleEnabled |};
      MenuItem {| id := "toggle-autorestart-enabled";
                  icon := if isAutorestartOnChangeEnabled then BsSquare else BsCheckBox;
                  text := if isAutorestartOnChangeEnabled
                          then "Disable restart on change"
                          else "Enable restart on change";
                  disabled := None;
                  onClick := handleToggleAutorestartEnabled |}]
  ++ fxdkCommandsItems.

(** The memo cells of one mounted [useResourceLifecycle]. *)
Record LifecycleCells := {
  cell_handleToggleEnabled : option (CallbackCell (string * bool));
  cell_handleToggleAutorestartEnabled : option (CallbackCell (string * bool));
  cell_handleRestart : option (CallbackCell string);
  cell_handleStop : option (CallbackCell string);
  cell_handleStart : option (CallbackCell string);
  cell_lifecycleContextMenuItems :
    option (MemoCell MenuDeps ContextMenuItemsCollection);
}.

Definition noCells : LifecycleCells :=
  {| cell_handleToggleEnabled := None;
     cell_handleToggleAutorestartEnabled := None;
     cell_handleRestart := None;
     cell_handleStop := None;
     cell_handleStart := None;
     cell_lifecycleContextMenuItems := None |}.

(** What one render of the hook reads: the stores, the local state, the
    identity of the [openCommandsOutput] function handed out by
    [useOpenFlag], and the arguments of the hook. *)
Record LifecycleRender := {
  r_ServerState : ServerStateT;
  r_st : UiState;
  r_openCommandsOutput : nat;
  r_resourceName : string;
  r_resourceConfig : option ProjectResource;
  r_resourceStatus : Ref ResourceStatus;
}.

(** [useResourceLifecycle] with its [useCallback] and [useMemo] cells, in
    render number [render]. *)
Definition useResourceLifecycleMemo (render : nat) (cells : LifecycleCells)
    (r : LifecycleRender) : ResourceLifecycle * LifecycleCells :=
  let resourceName := r_resourceName r in
  let resourceStatus := r_resourceStatus r in
  let '(commandsOutputOpen, openCommandsOutput, closeCommandsOutput) :=
    useOpenFlag commandsOutputCell false (r_st r) in
  let serverIsNotUp := negb (isUp (r_ServerState r)) in
  let resourceIsRunning := isResourceRunning (r_ServerState r) resourceName in
  let isEnabled := isEnabled (r_resourceConfig r) in
  let isAutorestartOnChangeEnabled :=
    isAutorestartOnChangeEnabled (r_resourceConfig r) in
  let handleToggleEnabled :=
    useCallback render (cell_handleToggleEnabled cells)
      (handleToggleEnabled resourceName isEnabled) (resourceName, isEnabled) in
  let handleToggleAutorestartEnabled :=
    useCallback render (cell_handleToggleAutorestartEnabled cells)
      (handleToggleAutorestartEnabled resourceName isAutorestartOnChangeEnabled)
      (resourceName, isAutorestartOnChangeEnabled) in
  let handleRestart :=
    useCallback render (cell_handleRestart cells)
      (handleRestart resourceName) resourceName in
  let handleStop :=
    useCallback render (cell_handleStop cells)
      (handleStop resourceName) resourceName in
  let handleStart :=
    useCallback render (cell_handleStart cells)
      (handleStart resourceName) resourceName in
  let lifecycleContextMenuItems :=
    useMemo (cell_lifecycleContextMenuItems cells)
      (fun _ =>
         lifecycleMenuBody serverIsNotUp (target resourceStatus)
           resourceIsRunning isEnabled isAutorestartOnChangeEnabled
           (cb_fn handleStop) (cb_fn handleRestart) (cb_fn handleStart)
           (cb_fn handleToggleEnabled) (cb_fn handleToggleAutorestartEnabled)
           openCommandsOutput)
      {| dep_serverIsNotUp := serverIsNotUp;
         dep_resourceName := resourceName;
         dep_resourceStatus := address resourceStatus;
         dep_resourceIsRunning := resourceIsRunning;
         dep_isEnabled := isEnabled;
         dep_isAutorestartOnChangeEnabled := isAutorestartOnChangeEnabled;
         dep_handleStop := cb_id handleStop;
         dep_handleRestart := cb_id handleRestart;
         dep_handleStart := cb_id handleStart;
         dep_openCommandsOutput := r_openCommandsOutput r |} in
  ({| resourceIsEnabled := isEnabled;
      resourceIsRunning := resourceIsRunning;
      lifecycleContextMenuItems := memo_value lifecycleContextMenuItems;
      commandsOutputOpen := commandsOutputOpen;
      closeCommandsOutput := closeCommandsOutput |},
   {| cell_handleToggleEnabled := Some handleToggleEnabled;
      cell_handleToggleAutorestartEnabled := Some handleToggleAutorestartEnabled;
      cell_handleRestart := Some handleRestart;
      cell_handleStop := Some handleStop;
      cell_handleStart := Some handleStart;
      cell_lifecycleContextMenuItems := Some lifecycleContextMenuItems |}).

(** The cells after a series of renders, the first of them numbered
    [render]. *)
Fixpoint renderAll (render : nat) (cells : LifecycleCells)
    (renders : list LifecycleRender) : LifecycleCells :=
  match renders with
  | [] => cells
  | r :: renders' =>
      renderAll (S render) (useResourceLifecycleMemo render cells r).2 renders'
  end.

(** The hook without its cells, on what a render reads. *)
Definition lifecycleOf (r : LifecycleRender) : ResourceLifecycle :=
  useResourceLifecycle (r_ServerState r) (r_st r) (r_resourceName r)
    (r_resourceConfig r) (target (r_resourceStatus r)).

(** ** Vocabulary of the specification *)


(** The label of a menu entry; a separator has none. *)
Definition entryText (e : ContextMenuEntry) : option string :=
  match e with
  | ContextMenuItemSeparator => None
  | MenuItem item => Some (text item)
  end.

(** The value of an open flag as the component reads it. *)
Definition flagValue (cell : FlagCell) (st : UiState) : bool :=
  (useOpenFlag cell false st).1.1.

(** ** A running example *)

(** A disconnected server on which only the resource [chat] still runs, an
    enabled config for it, and a status with two watch commands. *)
Definition exampleServer : ServerStateT :=
  {| isUp := false; isResourceRunning := fun name => String.eqb name "chat" |}.

Definition exampleConfig : ProjectResource :=
  {| enabled := Some true; restartOnChange := None |}.

Definition exampleStatus : ResourceStatus :=
  {| watchCommands := {[ "a" := {| running := true |};
                         "b" := {| running := false |} ]} |}.

Definition exampleLifecycle : ResourceLifecycle :=
  useResourceLifecycle exampleServer mounted "chat" (Some exampleConfig) exampleStatus.

(** ** Vocabulary of the further properties *)

(** The [openCommandsOutput] function of [useOpenFlag]; it is the same
    function whatever the local state of the render that obtained it. *)
Definition openCommandsOutputFn : Handler :=
  (useOpenFlag commandsOutputCell false mounted).1.2.

(** The cells hold what their dependencies say: a stored callback is the
    closure over its stored dependencies, and the stored menu is the menu
    for its stored dependencies, the status being the object that [heap]
    has at the stored address. *)
Definition cellsSound (heap : nat -> ResourceStatus) (cells : LifecycleCells) : Prop :=
  (∀ c, cell_handleToggleEnabled cells = Some c →
        cb_fn c = handleToggleEnabled (cb_deps c).1 (cb_deps c).2)
  ∧ (∀ c, cell_handleToggleAutorestartEnabled cells = Some c →
          cb_fn c = handleToggleAutorestartEnabled (cb_deps c).1 (cb_deps c).2)
  ∧ (∀ c, cell_handleRestart cells = Some c → cb_fn c = handleRestart (cb_deps c))
  ∧ (∀ c, cell_handleStop cells = Some c → cb_fn c = handleStop (cb_deps c))
  ∧ (∀ c, cell_handleStart cells = Some c → cb_fn c = handleStart (cb_deps c))
  ∧ (∀ m, cell_lifecycleContextMenuItems cells = Some m →
          memo_value m
          = makeLifecycleContextMenuItems
              (dep_serverIsNotUp (memo_deps m)) (dep_resourceName (memo_deps m))
              (heap (dep_resourceStatus (memo_deps m)))
              (dep_resourceIsRunning (memo_deps m)) (dep_isEnabled (memo_deps m))
              (dep_isAutorestartOnChangeEnabled (memo_deps m))
              openCommandsOutputFn).

(** The values a render feeds into the dependency lists of the hook. *)
Definition depValues (r : LifecycleRender)
  : bool * string * nat * bool * bool * bool * nat :=
  (negb (isUp (r_ServerState r)), r_resourceName r, address (r_resourceStatus r),
   isResourceRunning (r_ServerState r) (r_resourceName r),
   isEnabled (r_resourceConfig r), isAutorestartOnChangeEnabled (r_resourceConfig r),
   r_openCommandsOutput r).

(** The [id]s of the entries of a menu, separators left out. *)
Fixpoint menuIds (menu : ContextMenuItemsCollection) : list string :=
  match menu with
  | [] => []
  | ContextMenuItemSeparator :: menu' => menuIds menu'
  | MenuItem item :: menu' => id item :: menuIds menu'
  end.

(** The ids of the entries that [Resource] and its hook build themselves. *)
Definition ownIds : list string :=
  ["stop"; "restart"; "Start"; "toggle-enabled"; "toggle-autorestart-enabled";
   "open-watch-commands-output"; "delete"; "rename"].

(** A menu without a separator at either end and without two separators in
    a row; [afterSeparator] says that the entry before the list was a
    separator, or that the list starts the menu. *)
Fixpoint wellSeparated (afterSeparator : bool) (menu : ContextMenuItemsCollection)
  : bool :=
  match menu with
  | [] => negb afterSeparator
  | ContextMenuItemSeparator :: menu' =>
      negb afterSeparator && wellSeparated true menu'
  | MenuItem _ :: menu' => wellSeparated false menu'
  end.

(** The resource a message is about. *)
Definition payloadResource (payload : ApiPayload) : string :=
  match payload with
  | PayloadResourceName name => name
  | PayloadSetResourceConfig request => resourceName request
  end.

(** A menu entry without its [disabled] field. *)
Definition entryCore (e : ContextMenuEntry)
  : option (string * Icon * string * Handler) :=
  match e with
  | ContextMenuItemSeparator => None
  | MenuItem item => Some (id item, icon item, text item, onClick item)
  end.

(** The [title] and [className] of a rendered element. *)
Definition nodeTitle (node : ReactNode) : option string :=
  match node with
  | RElement _ _ title _ => title
  | _ => None
  end.

Definition nodeClassName (node : ReactNode) : list StyleClass :=
  match node with
  | RElement _ className _ _ => className
  | _ => []
  end.

(** ** Further examples *)

(** Two renders of the hook for [chat] that differ only in what the status
    object at address 7 holds. *)
Definition exampleRender : LifecycleRender :=
  {| r_ServerState := exampleServer;
     r_st := mounted;
     r_openCommandsOutput := 0;
     r_resourceName := "chat";
     r_resourceConfig := Some exampleConfig;
     r_resourceStatus := {| address := 7; target := defaultResourceStatus |} |}.

Definition exampleRenderMutated : LifecycleRender :=
  {| r_ServerState := exampleServer;
     r_st := mounted;
     r_openCommandsOutput := 0;
     r_resourceName := "chat";
     r_resourceConfig := Some exampleConfig;
     r_resourceStatus := {| address := 7; target := exampleStatus |} |}.

(** The same resource with its config gone and a new status object. *)
Definition exampleRenderNext : LifecycleRender :=
  {| r_ServerState := exampleServer;
     r_st := mounted;
     r_openCommandsOutput := 0;
     r_resourceName := "chat";
     r_resourceConfig := None;
     r_resourceStatus := {| address := 8; target := exampleStatus |} |}.

Definition exampleHeap (address : nat) : ResourceStatus :=
  if (address =? 7)%nat then defaultResourceStatus else exampleStatus.

Definition exampleOptions : ProjectExplorerItemContext :=
  {| disableAssetDelete := None; disableAssetRename := Some true |}.

Definition exampleHooks : ItemHooks :=
  {| contextMenuItems :=
       [MenuItem {| id := "new-file"; icon := resourceIcon; text := "New file";
                    disabled := None; onClick := fun st => st |}];
     requiredContextMenuItems :=
       [MenuItem {| id := "reveal"; icon := resourceIcon; text := "Reveal";
                    disabled := None; onClick := fun st => st |}];
     relocateTargetContextMenu := [];
     expanded := false |}.

Definition exampleProps : ProjectItemProps :=
  {| entry := {| name := "chat"; path := "/chat" |};
     project := {| resources := {[ "chat" := exampleConfig ]} |} |}.

Definition exampleOrphanProps : ProjectItemProps :=
  {| entry := {| name := "chat"; path := "/chat" |};
     project := {| resources := ∅ |} |}.

(** * Properties *)

(** ** Derived flags *)

Lemma toBoolean_true (v : option bool) : toBoolean v = true ↔ v = Some true.
Proof. destruct v as [[]|]; simpl; split; congruence. Qed.

Lemma toBoolean_false (v : option bool) :
  toBoolean v = false ↔ v = None ∨ v = Some false.
Proof. destruct v as [[]|]; simpl; split; intros; try tauto; intuition congruence. Qed.

Lemma optionalChain_Some {A B} (obj : option A) (field : A -> option B) (b : B) :
  optionalChain obj field = Some b ↔ ∃ o, obj = Some o ∧ field o = Some b.
Proof.
  destruct obj as [o|]; simpl.
  - split; [intros H; exists o; auto | intros (o' & [= <-] & H); exact H].
  - split; [discriminate | intros (o' & [=] & _)].
Qed.

Lemma optionalChain_None {A B} (obj : option A) (field : A -> option B) :
  optionalChain obj field = None ↔ obj = None ∨ ∃ o, obj = Some o ∧ field o = None.
Proof.
  destruct obj as [o|]; simpl.
  - split; [intros H; right; exists o; auto | intros [[=] | (o' & [= <-] & H)]; exact H].
  - split; auto.
Qed.

(** C4: [isEnabled] (resp. [isAutorestartOnChangeEnabled]) is [true] exactly
    when the config is present and its [enabled] (resp. [restartOnChange])
    field is present and [true]; it is [false] exactly when the config is
    absent, or the field is absent, or the field is [false].  The hook
    reports this [isEnabled] as [resourceIsEnabled]. *)
Theorem derived_config_flags (ServerState : ServerStateT) (st : UiState)
    (resourceName : string) (resourceConfig : option ProjectResource)
    (resourceStatus : ResourceStatus) :
  (isEnabled resourceConfig = true
     ↔ ∃ c, resourceConfig = Some c ∧ enabled c = Some true)
  ∧ (isEnabled resourceConfig = false
     ↔ resourceConfig = None
       ∨ ∃ c, resourceConfig = Some c ∧ (enabled c = None ∨ enabled c = Some false))
  ∧ (isAutorestartOnChangeEnabled resourceConfig = true
     ↔ ∃ c, resourceConfig = Some c ∧ restartOnChange c = Some true)
  ∧ (isAutorestartOnChangeEnabled resourceConfig = false
     ↔ resourceConfig = None
       ∨ ∃ c, resourceConfig = Some c
              ∧ (restartOnChange c = None ∨ restartOnChange c = Some false))
  ∧ resourceIsEnabled
      (useResourceLifecycle ServerState st resourceName resourceConfig resourceStatus)
    = isEnabled resourceConfig.
Proof.
  unfold isEnabled, isAutorestartOnChangeEnabled.
  repeat split.
  - rewrite toBoolean_true, optionalChain_Some; auto.
  - rewrite toBoolean_true, optionalChain_Some; auto.
  - rewrite toBoolean_false, optionalChain_None, optionalChain_Some.
    intros [[H | (c & Hc & Hf)] | (c & Hc & Hf)]; eauto 6.
  - rewrite toBoolean_false, optionalChain_None, optionalChain_Some.
    intros [H | (c & Hc & [Hf | Hf])]; eauto 6.
  - rewrite toBoolean_true, optionalChain_Some; auto.
  - rewrite toBoolean_true, optionalChain_Some; auto.
  - rewrite toBoolean_false, optionalChain_None, optionalChain_Some.
    intros [[H | (c & Hc & Hf)] | (c & Hc & Hf)]; eauto 6.
  - rewrite toBoolean_false, optionalChain_None, optionalChain_Some.
    intros [H | (c & Hc & [Hf | Hf])]; eauto 6.
Qed.

(** C5: [resourceIsRunning] is the connectivity store's answer for the
    resource name; two evaluations whose configs differ only in the
    [enabled] field report the same running state, and so do two
    evaluations that differ in the config, the status or the local UI state
    in any way. *)
Theorem running_independent_of_config (ServerState : ServerStateT)
    (resourceName : string) (st1 st2 : UiState)
    (resourceConfig1 resourceConfig2 : option ProjectResource)
    (resourceStatus1 resourceStatus2 : ResourceStatus)
    (enabled1 enabled2 restart : option bool) :
  let hook := useResourceLifecycle ServerState in
  resourceIsRunning (hook st1 resourceName resourceConfig1 resourceStatus1)
  = isResourceRunning ServerState resourceName
  ∧ resourceIsRunning
      (hook st1 resourceName
         (Some {| enabled := enabled1; restartOnChange := restart |}) resourceStatus1)
    = resourceIsRunning
        (hook st1 resourceName
           (Some {| enabled := enabled2; restartOnChange := restart |}) resourceStatus1)
  ∧ resourceIsRunning (hook st1 resourceName resourceConfig1 resourceStatus1)
    = resourceIsRunning (hook st2 resourceName resourceConfig2 resourceStatus2).
Proof. intros hook. repeat split; reflexivity. Qed.

(** ** The lifecycle menu *)

(** Membership in the lifecycle menu, by cases on what the hook saw. *)
Ltac menu_cases :=
  unfold useResourceLifecycle, makeLifecycleContextMenuItems, push; simpl;
  repeat match goal with
         | |- context [if ?b then _ else _] => destruct b eqn:?
         end;
  simpl.

Ltac menu_elem H :=
  repeat (rewrite ?elem_of_cons, ?elem_of_nil in H);
  repeat match type of H with
         | _ ∨ _ => destruct H as [H | H]
         end;
  try discriminate H;
  try (exfalso; exact H);
  try (injection H as ->; simpl in *).

Ltac menu_here :=
  repeat first [apply list_elem_of_here | apply list_elem_of_further].

(** Exhibit an entry of the menu in the goal that has the required fields. *)
Ltac menu_pick :=
  match goal with
  | |- ∃ item, MenuItem item ∈ ?l ∧ _ =>
      match l with
      | context [MenuItem ?i] => exists i; split; [menu_here | done]
      end
  end.

(** C1: the lifecycle menu has a 'Start' entry iff the resource is not
    running, and 'Stop' and 'Restart' entries iff it is running; activating
    such an entry appends one message to the outbox, on its own endpoint
    ([server.startResource], [server.stopResource], [server.restartResource])
    and with the bare resource name as payload, and changes nothing else. *)
Theorem lifecycle_start_stop_restart (ServerState : ServerStateT) (st : UiState)
    (resourceName : string) (resourceConfig : option ProjectResource)
    (resourceStatus : ResourceStatus) :
  let lc :=
    useResourceLifecycle ServerState st resourceName resourceConfig resourceStatus in
  let sends (item : ContextMenuItem) (event : ApiEvent) :=
    ∀ st', onClick item st'
           = {| cells := cells st';
                outbox := outbox st' ++ [(event, PayloadResourceName resourceName)] |} in
  ((∃ item, MenuItem item ∈ lifecycleContextMenuItems lc ∧ text item = "Start")
     ↔ resourceIsRunning lc = false)
  ∧ ((∃ item, MenuItem item ∈ lifecycleContextMenuItems lc ∧ text item = "Stop")
     ↔ resourceIsRunning lc = true)
  ∧ ((∃ item, MenuItem item ∈ lifecycleContextMenuItems lc ∧ text item = "Restart")
     ↔ resourceIsRunning lc = true)
  ∧ (∀ item, MenuItem item ∈ lifecycleContextMenuItems lc →
       (text item = "Start" → sends item server_startResource)
       ∧ (text item = "Stop" → sends item server_stopResource)
       ∧ (text item = "Restart" → sends item server_restartResource)).
Proof.
  intros lc sends. subst lc sends.
  split; [|split; [|split]].
  - split.
    + intros (item & Hin & Htext). revert Hin. menu_cases; intros Hin; menu_elem Hin; done.
    + simpl. intros Hrun. menu_cases; try congruence; menu_pick.
  - split.
    + intros (item & Hin & Htext). revert Hin. menu_cases; intros Hin; menu_elem Hin; done.
    + simpl. intros Hrun. menu_cases; try congruence; menu_pick.
  - split.
    + intros (item & Hin & Htext). revert Hin. menu_cases; intros Hin; menu_elem Hin; done.
    + simpl. intros Hrun. menu_cases; try congruence; menu_pick.
  - intros item. menu_cases; intros Hin; menu_elem Hin; repeat split; try done.
Qed.

Lemma lifecycle_start_stop_restart_witness :
  ∃ item, MenuItem item ∈ lifecycleContextMenuItems exampleLifecycle
          ∧ text item = "Stop"
          ∧ ∀ st', onClick item st'
                   = {| cells := cells st';
                        outbox := outbox st'
                                  ++ [(server_stopResource, PayloadResourceName "chat")] |}.
Proof.
  destruct (lifecycle_start_stop_restart
              exampleServer mounted "chat" (Some exampleConfig) exampleStatus)
    as (_ & Hstop & _ & Hsend).
  destruct (proj2 Hstop eq_refl) as (item & Hin & Htext).
  exists item. split; [exact Hin|]. split; [exact Htext|].
  exact (proj1 (proj2 (Hsend item Hin)) Htext).
Defined.

(** ** Watch commands *)


Lemma Object_values_empty {V} : Object_values (∅ : gmap string V) = [].
Proof. unfold Object_values. by rewrite map_to_list_empty. Qed.


Lemma Object_values_length {V} (m : gmap string V) :
  length (Object_values m) = size m.
Proof. unfold Object_values. by rewrite length_fmap, length_map_to_list. Qed.

Lemma numberIsTruthy_values {V} (m : gmap string V) :
  numberIsTruthy (length (Object_values m)) = bool_decide (m ≠ ∅).
Proof.
  rewrite Object_values_length. unfold numberIsTruthy.
  destruct (decide (m = ∅)) as [-> | Hne].
  - rewrite map_size_empty. simpl. by rewrite bool_decide_eq_false_2; [|tauto].
  - rewrite bool_decide_eq_true_2 by done.
    destruct (size m) eqn:Hsz; [|done].
    by apply map_size_empty_iff in Hsz.
Qed.



(** ** Server connectivity *)

(** C2: with the server connection down, the lifecycle menu offers the same
    entries, in the same order, as with the connection up (nothing is left
    out because the server is down); the lifecycle commands that apply to
    the resource's running state are there ('Stop' and 'Restart' for a
    running resource, 'Start' otherwise), and every 'Start', 'Stop' or
    'Restart' entry of the menu is marked [disabled: true]. *)
Theorem lifecycle_commands_disabled_when_down (running : string -> bool) (st : UiState)
    (resourceName : string) (resourceConfig : option ProjectResource)
    (resourceStatus : ResourceStatus) :
  let hook up :=
    useResourceLifecycle {| isUp := up; isResourceRunning := running |} st
      resourceName resourceConfig resourceStatus in
  let present label :=
    ∃ item, MenuItem item ∈ lifecycleContextMenuItems (hook false)
            ∧ text item = label ∧ disabled item = Some true in
  entryText <$> lifecycleContextMenuItems (hook false)
  = entryText <$> lifecycleContextMenuItems (hook true)
  ∧ (if resourceIsRunning (hook false)
     then present "Stop" ∧ present "Restart"
     else present "Start")
  ∧ (∀ item, MenuItem item ∈ lifecycleContextMenuItems (hook false) →
       text item ∈ ["Start"; "Stop"; "Restart"] → disabled item = Some true).
Proof.
  intros hook present. subst hook present.
  split; [|split].
  - menu_cases; reflexivity.
  - simpl. menu_cases; repeat split;
      match goal with
      | |- ∃ item, MenuItem item ∈ ?l ∧ _ =>
          match l with
          | context [MenuItem ?i] => exists i; split; [menu_here | split; done]
          end
      end.
  - intros item. menu_cases; intros Hin Htext; menu_elem Hin;
      solve [reflexivity | exfalso; menu_elem Htext].
Qed.

Lemma lifecycle_commands_disabled_when_down_witness :
  (∃ item, MenuItem item ∈ lifecycleContextMenuItems exampleLifecycle
           ∧ text item = "Stop" ∧ disabled item = Some true)
  ∧ (∃ item, MenuItem item ∈ lifecycleContextMenuItems exampleLifecycle
             ∧ text item = "Restart" ∧ disabled item = Some true).
Proof.
  exact (proj1 (proj2 (lifecycle_commands_disabled_when_down
                         (fun name => String.eqb name "chat") mounted "chat"
                         (Some exampleConfig) exampleStatus))).
Defined.

(** ** The two toggles *)

(** C3: the 'toggle-enabled' entry is in the menu and activating it sends
    one [project.setResourceConfig] request whose config has [enabled] set
    to the negation of the current [isEnabled] ([true] for a resource that
    is not enabled, and vice versa); likewise 'toggle-autorestart-enabled'
    sends [restartOnChange] set to the negation of the current
    [isAutorestartOnChangeEnabled]. *)
Theorem toggles_send_negated_flag (ServerState : ServerStateT) (st : UiState)
    (resourceName : string) (resourceConfig : option ProjectResource)
    (resourceStatus : ResourceStatus) :
  let lc :=
    useResourceLifecycle ServerState st resourceName resourceConfig resourceStatus in
  let sends (item : ContextMenuItem) (request : ProjectSetResourceConfigRequest) :=
    ∀ st', onClick item st'
           = {| cells := cells st';
                outbox := outbox st'
                          ++ [(project_setResourceConfig,
                               PayloadSetResourceConfig request)] |} in
  (∃ item, MenuItem item ∈ lifecycleContextMenuItems lc ∧ id item = "toggle-enabled")
  ∧ (∃ item, MenuItem item ∈ lifecycleContextMenuItems lc
             ∧ id item = "toggle-autorestart-enabled")
  ∧ (∀ item, MenuItem item ∈ lifecycleContextMenuItems lc →
       (id item = "toggle-enabled" →
        ∃ request, sends item request
                   ∧ enabled (config request) = Some (negb (isEnabled resourceConfig)))
       ∧ (id item = "toggle-autorestart-enabled" →
          ∃ request, sends item request
                     ∧ restartOnChange (config request)
                       = Some (negb (isAutorestartOnChangeEnabled resourceConfig)))).
Proof.
  intros lc sends. subst lc sends.
  split; [|split].
  - menu_cases; menu_pick.
  - menu_cases; menu_pick.
  - intros item. menu_cases; intros Hin; menu_elem Hin;
      (split; intros Hid; try discriminate Hid);
      eexists; (split; [intros st'; reflexivity | reflexivity]).
Qed.

Lemma toggles_send_negated_flag_witness :
  ∃ item request,
    MenuItem item ∈ lifecycleContextMenuItems exampleLifecycle
    ∧ id item = "toggle-enabled"
    ∧ enabled (config request) = Some false
    ∧ ∀ st', onClick item st'
             = {| cells := cells st';
                  outbox := outbox st'
                            ++ [(project_setResourceConfig,
                                 PayloadSetResourceConfig request)] |}.
Proof.
  destruct (toggles_send_negated_flag
              exampleServer mounted "chat" (Some exampleConfig) exampleStatus)
    as ((item & Hin & Hid) & _ & Hsend).
  destruct (proj1 (Hsend item Hin) Hid) as (request & Hreq & Hval).
  exists item, request. split; [exact Hin|]. split; [exact Hid|].
  split; [exact Hval | exact Hreq].
Defined.

(** C10: the request built by the enabled toggle carries the resource name,
    an [enabled] key and no [restartOnChange] key; the request built by the
    autorestart toggle carries the resource name, a [restartOnChange] key
    and no [enabled] key.  Each handler sends exactly that one request. *)
Theorem toggle_requests_are_partial (resource : string) (flag : bool) (st : UiState) :
  (∃ request,
     handleToggleEnabled resource flag st
     = {| cells := cells st;
          outbox := outbox st
                    ++ [(project_setResourceConfig, PayloadSetResourceConfig request)] |}
     ∧ resourceName request = resource
     ∧ is_Some (enabled (config request))
     ∧ restartOnChange (config request) = None)
  ∧ (∃ request,
       handleToggleAutorestartEnabled resource flag st
       = {| cells := cells st;
            outbox := outbox st
                      ++ [(project_setResourceConfig, PayloadSetResourceConfig request)] |}
       ∧ resourceName request = resource
       ∧ is_Some (restartOnChange (config request))
       ∧ enabled (config request) = None).
Proof.
  split; eexists; (split; [reflexivity | simpl; eauto]).
Qed.

(** C7: whatever the server connectivity, the 'toggle-enabled' and
    'toggle-autorestart-enabled' entries carry no [disabled] marking, and
    their label and icon name the action they perform: 'Disable resource'
    (with the disabled-resource icon) exactly when [isEnabled] is true, in
    which case activating the entry sends [enabled: false]; 'Enable
    resource' (with the enabled-resource icon) exactly when it is false, in
    which case it sends [enabled: true]; and the same for restart on
    change. *)
Theorem toggle_entries_name_their_action (ServerState : ServerStateT) (st : UiState)
    (resourceName : string) (resourceConfig : option ProjectResource)
    (resourceStatus : ResourceStatus) :
  let lc :=
    useResourceLifecycle ServerState st resourceName resourceConfig resourceStatus in
  let sends (item : ContextMenuItem) (patch : ProjectResource) :=
    ∀ st', outbox (onClick item st')
           = outbox st'
             ++ [(project_setResourceConfig,
                  PayloadSetResourceConfig
                    {| resourceName := resourceName; config := patch |})] in
  ∀ item, MenuItem item ∈ lifecycleContextMenuItems lc →
    (id item = "toggle-enabled" →
       disabled item = None
       ∧ (text item = "Disable resource" ↔ isEnabled resourceConfig = true)
       ∧ (text item = "Enable resource" ↔ isEnabled resourceConfig = false)
       ∧ icon item = (if isEnabled resourceConfig
                      then disabledResourceIcon else enabledResourceIcon)
       ∧ ∃ target, sends item {| enabled := Some target; restartOnChange := None |}
                   ∧ (text item = "Disable resource" ↔ target = false)
                   ∧ (text item = "Enable resource" ↔ target = true))
    ∧ (id item = "toggle-autorestart-enabled" →
         disabled item = None
         ∧ (text item = "Disable restart on change"
            ↔ isAutorestartOnChangeEnabled resourceConfig = true)
         ∧ (text item = "Enable restart on change"
            ↔ isAutorestartOnChangeEnabled resourceConfig = false)
         ∧ icon item = (if isAutorestartOnChangeEnabled resourceConfig
                        then BsSquare else BsCheckBox)
         ∧ ∃ target, sends item {| enabled := None; restartOnChange := Some target |}
                     ∧ (text item = "Disable restart on change" ↔ target = false)
                     ∧ (text item = "Enable restart on change" ↔ target = true)).
Proof.
  intros lc sends. subst lc sends.
  intros item. menu_cases; intros Hin; menu_elem Hin;
    (split; intros Hid; try discriminate Hid);
    (split; [reflexivity|]);
    (split; [split; done|]);
    (split; [split; done|]);
    (split; [reflexivity|]);
    eexists; (split; [intros st'; reflexivity|]); split; split; done.
Qed.

Lemma toggle_entries_name_their_action_witness :
  let item :=
    {| id := "toggle-enabled"; icon := disabledResourceIcon;
       text := "Disable resource"; disabled := None;
       onClick := handleToggleEnabled "chat" true |} in
  MenuItem item ∈ lifecycleContextMenuItems exampleLifecycle
  ∧ disabled item = None
  ∧ ∃ target,
      target = false
      ∧ ∀ st', outbox (onClick item st')
               = outbox st'
                 ++ [(project_setResourceConfig,
                      PayloadSetResourceConfig
                        {| resourceName := "chat";
                           config := {| enabled := Some target;
                                        restartOnChange := None |} |})].
Proof.
  intros item.
  assert (Hin : MenuItem item ∈ lifecycleContextMenuItems exampleLifecycle).
  { vm_compute. menu_here. }
  split; [exact Hin|].
  destruct (proj1 (toggle_entries_name_their_action
                     exampleServer mounted "chat" (Some exampleConfig) exampleStatus
                     item Hin) eq_refl)
    as (Hdis & _ & _ & _ & target & Hsend & Hlabel & _).
  split; [exact Hdis|].
  exists target. split; [exact (proj1 Hlabel eq_refl) | exact Hsend].
Defined.

(** ** Local modal flags *)

Lemma renderWhen_Some (flag : bool) (props p : ModalProps) :
  renderWhen flag props = Some p ↔ flag = true ∧ p = props.
Proof.
  destruct flag; simpl.
  - split; [intros [= <-]; done | intros [_ ->]; done].
  - split; [discriminate | intros [[=] _]].
Qed.

Lemma renderWhen_is_Some (flag : bool) (props : ModalProps) :
  is_Some (renderWhen flag props) ↔ flag = true.
Proof. destruct flag; simpl; split; try done; intros [? [=]]. Qed.

(** C8: the three modal flags start as [false], so no modal is rendered on
    mount.  The 'delete' and 'rename' entries of the item's menu (and the
    'Watch commands output' entry of the lifecycle menu) only set their own
    flag: the outbox is left as it was and the other two flags keep their
    values.  A modal is rendered iff its flag is set, and its [onClose]
    only clears that flag.  In general, for each flag, [open] sets it and
    [close] clears it without sending anything and without changing either
    of the other flags, and sending a message changes no flag. *)
Theorem modal_flags_are_local (ServerState : ServerStateT)
    (StatusState : gmap string ResourceStatus)
    (options : ProjectExplorerItemContext) (hooks : ItemHooks)
    (props : ProjectItemProps) :
  let view st := Resource ServerState StatusState options hooks st props in
  let lifecycle st :=
    useResourceLifecycle ServerState st (name (entry props))
      (resources (project props) !! name (entry props))
      (StatusState_get StatusState ("resource-" +:+ path (entry props))
         defaultResourceStatus) in
  let localTo (own : FlagCell) (target : bool) (h : Handler) :=
    ∀ st' cell,
      outbox (h st') = outbox st'
      ∧ flagValue cell (h st')
        = (if decide (cell = own) then target else flagValue cell st') in
  let modalOf (own : FlagCell) (modal : option ModalProps) (st : UiState) :=
    (is_Some modal ↔ flagValue own st = true)
    ∧ ∀ p, modal = Some p → localTo own false (onClose p) in
  (∀ cell, flagValue cell mounted = false)
  ∧ (deleterModal (view mounted) = None
     ∧ renamerModal (view mounted) = None
     ∧ commandsOutputModal (view mounted) = None)
  ∧ (∀ st, ∃ del ren,
       itemContextMenuItems (view st)
       = lifecycleContextMenuItems (lifecycle st)
         ++ [ContextMenuItemSeparator] ++ relocateTargetContextMenu hooks
         ++ [ContextMenuItemSeparator; MenuItem del; MenuItem ren;
             ContextMenuItemSeparator]
         ++ contextMenuItems hooks
         ++ [ContextMenuItemSeparator] ++ requiredContextMenuItems hooks
       ∧ id del = "delete" ∧ localTo deleterCell true (onClick del)
       ∧ id ren = "rename" ∧ localTo renamerCell true (onClick ren))
  ∧ (∀ st item, MenuItem item ∈ lifecycleContextMenuItems (lifecycle st) →
       id item = "open-watch-commands-output" →
       localTo commandsOutputCell true (onClick item))
  ∧ (∀ st, modalOf deleterCell (deleterModal (view st)) st
           ∧ modalOf renamerCell (renamerModal (view st)) st
           ∧ modalOf commandsOutputCell (commandsOutputModal (view st)) st)
  ∧ (∀ own st,
       let '(flag, open, close) := useOpenFlag own false st in
       flag = flagValue own st ∧ localTo own true open ∧ localTo own false close)
  ∧ (∀ event payload st cell,
       flagValue cell (sendApiMessage event payload st) = flagValue cell st).
Proof.
  intros view lifecycle localTo modalOf. subst view lifecycle localTo modalOf.
  split; [|split; [|split; [|split; [|split; [|split]]]]].
  - intros []; reflexivity.
  - repeat split; reflexivity.
  - intros st. unfold Resource. simpl.
    do 2 eexists. split; [reflexivity|].
    repeat split; try reflexivity; destruct cell; reflexivity.
  - intros st item. menu_cases; intros Hin Hid; menu_elem Hin;
      try discriminate Hid;
      intros st' cell; (split; [reflexivity | destruct cell; reflexivity]).
  - intros st. unfold Resource, flagValue. simpl.
    split; [|split];
      (split;
       [apply renderWhen_is_Some
       |intros p [_ ->]%renderWhen_Some st' cell;
        split; [reflexivity | destruct cell; reflexivity]]).
  - intros own st. simpl.
    repeat split; destruct own, cell; reflexivity.
  - intros event payload st cell. destruct cell; reflexivity.
Qed.

Lemma modal_flags_are_local_witness :
  let view st :=
    Resource exampleServer ∅ {| disableAssetDelete := None; disableAssetRename := None |}
      {| contextMenuItems := []; requiredContextMenuItems := [];
         relocateTargetContextMenu := []; expanded := false |}
      st {| entry := {| name := "chat"; path := "/chat" |};
            project := {| resources := {[ "chat" := exampleConfig ]} |} |} in
  ∃ del,
    MenuItem del ∈ itemContextMenuItems (view mounted)
    ∧ id del = "delete"
    ∧ outbox (onClick del mounted) = []
    ∧ is_Some (deleterModal (view (onClick del mounted)))
    ∧ renamerModal (view (onClick del mounted)) = None.
Proof.
  intros view.
  destruct (modal_flags_are_local exampleServer ∅
              {| disableAssetDelete := None; disableAssetRename := None |}
              {| contextMenuItems := []; requiredContextMenuItems := [];
                 relocateTargetContextMenu := []; expanded := false |}
              {| entry := {| name := "chat"; path := "/chat" |};
                 project := {| resources := {[ "chat" := exampleConfig ]} |} |})
    as (_ & _ & Hmenu & _ & Hmodal & _).
  destruct (Hmenu mounted) as (del & ren & Heq & Hid & Hdel & _).
  exists del. split.
  { fold (view mounted) in Heq. rewrite Heq.
    rewrite !elem_of_app. right. right. right. left.
    apply list_elem_of_further, list_elem_of_here. }
  split; [exact Hid|].
  split; [exact (proj1 (Hdel mounted deleterCell))|].
  split.
  - apply (proj1 (Hmodal (onClick del mounted))).
    exact (proj2 (Hdel mounted deleterCell)).
  - destruct (renamerModal (view (onClick del mounted))) as [p|] eqn:Hren; [|reflexivity].
    assert (Hflag : flagValue renamerCell (onClick del mounted) = true).
    { apply (proj1 (proj1 (proj2 (Hmodal (onClick del mounted))))).
      fold (view (onClick del mounted)). rewrite Hren. by eexists. }
    rewrite (proj2 (Hdel mounted renamerCell)) in Hflag. discriminate Hflag.
Defined.

(** ** [renderedIf] *)

Lemma spread_id {V} (props : gmap string V) : convenience.spread props = props.
Proof. unfold convenience.spread. apply list_to_map_to_list. Qed.

(** C9: the component returned by [renderedIf p C] calls [p] once; when [p]
    answers [false] it renders [null], and when [p] answers [true] it
    renders [C] with the very props it was given. *)
Theorem renderedIf_renders_iff_precondition {Store V FC : Type}
    (precondition : Store -> bool * Store) (Component : FC)
    (props : gmap string V) (store : Store) :
  convenience.renderedIf precondition Component props store
  = (if (precondition store).1
     then convenience.createElement Component props
     else convenience.null,
     (precondition store).2).
Proof.
  unfold convenience.renderedIf.
  destruct (precondition store) as [[] store']; simpl; [|reflexivity].
  by rewrite spread_id.
Qed.

(** * Further properties *)

(** ** Memoisation *)

Lemma useCallback_deps {D} `{EqDecision D} (render : nat)
    (cell : option (CallbackCell D)) (fn : Handler) (deps : D) :
  cb_deps (useCallback render cell fn deps) = deps.
Proof.
  unfold useCallback. destruct cell as [c|]; [|reflexivity].
  case_decide; [assumption | reflexivity].
Qed.

Lemma useCallback_fn {D} `{EqDecision D} (make : D -> Handler) (render : nat)
    (cell : option (CallbackCell D)) (deps : D) :
  (∀ c, cell = Some c → cb_fn c = make (cb_deps c)) →
  cb_fn (useCallback render cell (make deps) deps) = make deps.
Proof.
  intros Hcell. unfold useCallback. destruct cell as [c|]; [|reflexivity].
  case_decide as Hd; [|reflexivity].
  rewrite (Hcell c eq_refl). by rewrite Hd.
Qed.

Lemma useMemo_deps {D A} `{EqDecision D}
    (cell : option (MemoCell D A)) (factory : unit -> A) (deps : D) :
  memo_deps (useMemo cell factory deps) = deps.
Proof.
  unfold useMemo. destruct cell as [c|]; [|reflexivity].
  case_decide; [assumption | reflexivity].
Qed.

Lemma useMemo_value {D A} `{EqDecision D} (make : D -> A)
    (cell : option (MemoCell D A)) (factory : unit -> A) (deps : D) :
  (∀ c, cell = Some c → memo_value c = make (memo_deps c)) →
  factory tt = make deps →
  memo_value (useMemo cell factory deps) = make deps.
Proof.
  intros Hcell Hnew. unfold useMemo. destruct cell as [c|]; [|exact Hnew].
  case_decide as Hd; [|exact Hnew].
  rewrite (Hcell c eq_refl). by rewrite Hd.
Qed.

Lemma lifecycleMenuBody_fresh (serverIsNotUp : bool) (resourceName : string)
    (resourceStatus : ResourceStatus)
    (resourceIsRunning isEnabled isAutorestartOnChangeEnabled : bool)
    (openCommandsOutput : Handler) :
  lifecycleMenuBody serverIsNotUp resourceStatus resourceIsRunning isEnabled
    isAutorestartOnChangeEnabled
    (handleStop resourceName) (handleRestart resourceName) (handleStart resourceName)
    (handleToggleEnabled resourceName isEnabled)
    (handleToggleAutorestartEnabled resourceName isAutorestartOnChangeEnabled)
    openCommandsOutput
  = makeLifecycleContextMenuItems serverIsNotUp resourceName resourceStatus
      resourceIsRunning isEnabled isAutorestartOnChangeEnabled openCommandsOutput.
Proof. reflexivity. Qed.

Lemma noCells_sound (heap : nat -> ResourceStatus) : cellsSound heap noCells.
Proof. repeat split; intros c [=]. Qed.

Lemma render_sound (heap : nat -> ResourceStatus) (render : nat)
    (cells : LifecycleCells) (r : LifecycleRender) :
  cellsSound heap cells →
  target (r_resourceStatus r) = heap (address (r_resourceStatus r)) →
  (useResourceLifecycleMemo render cells r).1 = lifecycleOf r
  ∧ cellsSound heap (useResourceLifecycleMemo render cells r).2.
Proof.
  intros (Hte & Hta & Hr & Hsp & Hst & Hm) Hheap.
  unfold useResourceLifecycleMemo, lifecycleOf, useResourceLifecycle. simpl.
  pose proof (useCallback_fn (λ d, handleToggleEnabled d.1 d.2) render _
                (r_resourceName r, isEnabled (r_resourceConfig r)) Hte) as Ete.
  pose proof (useCallback_fn (λ d, handleToggleAutorestartEnabled d.1 d.2) render _
                (r_resourceName r, isAutorestartOnChangeEnabled (r_resourceConfig r)) Hta)
    as Eta.
  pose proof (useCallback_fn handleRestart render _ (r_resourceName r) Hr) as Er.
  pose proof (useCallback_fn handleStop render _ (r_resourceName r) Hsp) as Esp.
  pose proof (useCallback_fn handleStart render _ (r_resourceName r) Hst) as Est.
  simpl in Ete, Eta.
  rewrite Ete, Eta, Er, Esp, Est, lifecycleMenuBody_fresh.
  set (deps := Build_MenuDeps _ _ _ _ _ _ _ _ _ _).
  set (body := makeLifecycleContextMenuItems _ _ _ _ _ _ _).
  assert (Hvalue :
    memo_value (useMemo (cell_lifecycleContextMenuItems cells) (λ _, body) deps) = body).
  { pose (make := λ d : MenuDeps,
             makeLifecycleContextMenuItems
               (dep_serverIsNotUp d) (dep_resourceName d)
               (heap (dep_resourceStatus d))
               (dep_resourceIsRunning d) (dep_isEnabled d)
               (dep_isAutorestartOnChangeEnabled d) openCommandsOutputFn).
    assert (Hbody : body = make deps).
    { subst body deps make. simpl. by rewrite Hheap. }
    rewrite Hbody.
    exact (useMemo_value make _ (λ _, make deps) deps Hm eq_refl). }
  split.
  - by rewrite Hvalue.
  - repeat split; simpl; intros c [= <-].
    + by rewrite useCallback_deps.
    + by rewrite useCallback_deps.
    + by rewrite useCallback_deps.
    + by rewrite useCallback_deps.
    + by rewrite useCallback_deps.
    + rewrite Hvalue, useMemo_deps. subst body deps. simpl. by rewrite Hheap.
Qed.

Lemma renderAll_sound (heap : nat -> ResourceStatus) (renders : list LifecycleRender) :
  ∀ render cells,
    cellsSound heap cells →
    Forall (λ r, target (r_resourceStatus r) = heap (address (r_resourceStatus r)))
      renders →
    cellsSound heap (renderAll render cells renders).
Proof.
  induction renders as [|r renders IH]; intros render cells Hcells Hall; simpl.
  - exact Hcells.
  - inversion Hall as [|? ? Hr Hrest]; subst.
    apply IH; [|exact Hrest].
    exact (proj2 (render_sound heap render cells r Hcells Hr)).
Qed.

(** X1: after any series of renders in which a status object keeps its
    contents for as long as it keeps its identity, the hook with its
    [useCallback] and [useMemo] cells returns what the hook computes afresh
    from the values of the last render: the dependency lists leave out
    nothing that the memoised menu depends on. *)
Theorem memo_transparent (heap : nat -> ResourceStatus)
    (renders : list LifecycleRender) (r : LifecycleRender) :
  Forall (λ r, target (r_resourceStatus r) = heap (address (r_resourceStatus r)))
    (renders ++ [r]) →
  (useResourceLifecycleMemo (length renders) (renderAll 0 noCells renders) r).1
  = lifecycleOf r.
Proof.
  intros Hall. apply Forall_app in Hall as [Hrenders Hr].
  apply (proj1 (Forall_singleton _ _)) in Hr.
  apply (render_sound heap); [|exact Hr].
  apply renderAll_sound; [apply noCells_sound | exact Hrenders].
Qed.

Lemma memo_transparent_witness :
  (useResourceLifecycleMemo 2
     (renderAll 0 noCells [exampleRender; exampleRender]) exampleRenderNext).1
  = lifecycleOf exampleRenderNext.
Proof.
  apply (memo_transparent exampleHeap [exampleRender; exampleRender] exampleRenderNext).
  repeat constructor.
Defined.

Lemma useCallback_same {D} `{EqDecision D} (render : nat) (c : CallbackCell D)
    (fn : Handler) (deps : D) :
  cb_deps c = deps → useCallback render (Some c) fn deps = c.
Proof. intros Hd. unfold useCallback. by rewrite decide_True. Qed.

Lemma useMemo_same {D A} `{EqDecision D} (c : MemoCell D A)
    (factory : unit -> A) (deps : D) :
  memo_deps c = deps → useMemo (Some c) factory deps = c.
Proof. intros Hd. unfold useMemo. by rewrite decide_True. Qed.

Lemma render_same_deps (render : nat) (cells : LifecycleCells)
    (r r' : LifecycleRender) :
  depValues r' = depValues r →
  (useResourceLifecycleMemo (S render) (useResourceLifecycleMemo render cells r).2 r').2
  = (useResourceLifecycleMemo render cells r).2
  ∧ lifecycleContextMenuItems
      (useResourceLifecycleMemo (S render)
         (useResourceLifecycleMemo render cells r).2 r').1
    = lifecycleContextMenuItems (useResourceLifecycleMemo render cells r).1.
Proof.
  unfold depValues. intros [= Hup Hname Haddr Hrun Hen Hauto Hopen].
  unfold useResourceLifecycleMemo. cbn -[useCallback useMemo].
  rewrite Hrun, Hup, Hname, Haddr, Hen, Hauto, Hopen.
  rewrite !useCallback_same by apply useCallback_deps.
  rewrite useMemo_same by apply useMemo_deps.
  split; reflexivity.
Qed.

(** X2: a render that feeds the same values into the dependency lists as
    the render before it keeps every cell as it was and returns the very
    menu of the render before. *)
Theorem memo_kept_on_same_deps (render : nat) (cells : LifecycleCells)
    (r r' : LifecycleRender) :
  depValues r' = depValues r →
  let first := useResourceLifecycleMemo render cells r in
  let second := useResourceLifecycleMemo (S render) first.2 r' in
  second.2 = first.2
  ∧ lifecycleContextMenuItems second.1 = lifecycleContextMenuItems first.1.
Proof. intros Hdeps first second. exact (render_same_deps render cells r r' Hdeps). Qed.

Lemma memo_kept_on_same_deps_witness :
  (useResourceLifecycleMemo 1
     (useResourceLifecycleMemo 0 noCells exampleRender).2 exampleRenderMutated).2
  = (useResourceLifecycleMemo 0 noCells exampleRender).2.
Proof.
  exact (proj1 (memo_kept_on_same_deps 0 noCells exampleRender exampleRenderMutated
                  eq_refl)).
Defined.

Lemma watch_entry_iff (serverIsNotUp : bool) (resourceName : string)
    (resourceStatus : ResourceStatus)
    (resourceIsRunning isEnabled isAutorestartOnChangeEnabled : bool)
    (openCommandsOutput : Handler) :
  (∃ item,
     MenuItem item
     ∈ makeLifecycleContextMenuItems serverIsNotUp resourceName resourceStatus
         resourceIsRunning isEnabled isAutorestartOnChangeEnabled openCommandsOutput
     ∧ text item = "Watch commands output")
  ↔ watchCommands resourceStatus ≠ ∅.
Proof.
  unfold makeLifecycleContextMenuItems, push.
  rewrite numberIsTruthy_values.
  split.
  - intros (item & Hin & Htext) He. revert Hin.
    rewrite bool_decide_eq_false_2 by tauto.
    destruct resourceIsRunning, isEnabled, isAutorestartOnChangeEnabled; simpl;
      intros Hin; menu_elem Hin; done.
  - intros Hne. rewrite bool_decide_eq_true_2 by done.
    destruct resourceIsRunning, isEnabled, isAutorestartOnChangeEnabled; simpl;
      menu_pick.
Qed.

(** X3: the memoised menu follows the identity of the status object, not
    its contents: when the second render after mount feeds the same values
    into the dependency lists (the same status address among them), its menu
    is the menu for the status contents of the first render, and it has a
    'Watch commands output' entry iff the [watchCommands] of the first
    render were not empty, whatever the status holds by now. *)
Theorem memo_follows_status_identity (r r' : LifecycleRender) :
  depValues r' = depValues r →
  let first := useResourceLifecycleMemo 0 noCells r in
  let second := useResourceLifecycleMemo 1 first.2 r' in
  lifecycleContextMenuItems second.1 = lifecycleContextMenuItems (lifecycleOf r)
  ∧ ((∃ item, MenuItem item ∈ lifecycleContextMenuItems second.1
              ∧ text item = "Watch commands output")
     ↔ watchCommands (target (r_resourceStatus r)) ≠ ∅).
Proof.
  intros Hdeps first second.
  assert (Hmenu : lifecycleContextMenuItems second.1
                  = lifecycleContextMenuItems (lifecycleOf r)).
  { subst first second.
    rewrite (proj2 (render_same_deps 0 noCells r r' Hdeps)).
    reflexivity. }
  split; [exact Hmenu|].
  rewrite Hmenu. apply watch_entry_iff.
Qed.

Lemma memo_follows_status_identity_witness :
  watchCommands (target (r_resourceStatus exampleRenderMutated)) ≠ ∅
  ∧ ¬ ∃ item,
        MenuItem item
        ∈ lifecycleContextMenuItems
            (useResourceLifecycleMemo 1
               (useResourceLifecycleMemo 0 noCells exampleRender).2
               exampleRenderMutated).1
        ∧ text item = "Watch commands output".
Proof.
  split.
  - apply insert_non_empty.
  - intros Hentry.
    apply (proj1 (proj2 (memo_follows_status_identity exampleRender
                           exampleRenderMutated eq_refl)) Hentry).
    reflexivity.
Defined.

(** ** Identifiers and separators of the menus *)

Lemma menuIds_app (menu1 menu2 : ContextMenuItemsCollection) :
  menuIds (menu1 ++ menu2) = menuIds menu1 ++ menuIds menu2.
Proof.
  induction menu1 as [|[|item] menu1 IH]; simpl; [reflexivity | exact IH |].
  by rewrite IH.
Qed.

Lemma lifecycle_ids (serverIsNotUp : bool) (resourceName : string)
    (resourceStatus : ResourceStatus)
    (resourceIsRunning isEnabled isAutorestartOnChangeEnabled : bool)
    (openCommandsOutput : Handler) :
  let ids :=
    menuIds
      (makeLifecycleContextMenuItems serverIsNotUp resourceName resourceStatus
         resourceIsRunning isEnabled isAutorestartOnChangeEnabled openCommandsOutput) in
  NoDup (ids ++ ["delete"; "rename"]) ∧ ∀ x, x ∈ ids → x ∈ ownIds.
Proof.
  unfold makeLifecycleContextMenuItems, push, ownIds.
  destruct resourceIsRunning,
    (numberIsTruthy (length (Object_values (watchCommands resourceStatus))));
    simpl; (split; [compute_done|]);
    intros x Hx; menu_elem Hx; subst x; menu_here.
Qed.

(** X4: the ids of the item's menu are pairwise distinct whenever the ids
    of the entries supplied by the explorer hooks are pairwise distinct and
    none of them is one of the eight ids the component uses itself. *)
Theorem resource_menu_ids_distinct (ServerState : ServerStateT)
    (StatusState : gmap string ResourceStatus)
    (options : ProjectExplorerItemContext) (hooks : ItemHooks)
    (st : UiState) (props : ProjectItemProps) :
  let external :=
    menuIds
      (relocateTargetContextMenu hooks ++ contextMenuItems hooks
       ++ requiredContextMenuItems hooks) in
  NoDup external →
  (∀ x, x ∈ external → x ∉ ownIds) →
  NoDup (menuIds
           (itemContextMenuItems
              (Resource ServerState StatusState options hooks st props))).
Proof.
  intros external Hnodup Hfresh. subst external.
  unfold Resource, useResourceLifecycle. simpl.
  match goal with
  | |- context [makeLifecycleContextMenuItems ?a ?b ?c ?d ?e ?f ?g] =>
      destruct (lifecycle_ids a b c d e f g) as [Hown Hsub];
      set (lifecycle := makeLifecycleContextMenuItems a b c d e f g) in *
  end.
  rewrite !menuIds_app in Hnodup, Hfresh.
  repeat (rewrite menuIds_app; simpl).
  set (L := menuIds lifecycle) in *.
  set (R := menuIds (relocateTargetContextMenu hooks)) in *.
  set (C := menuIds (contextMenuItems hooks)) in *.
  set (Q := menuIds (requiredContextMenuItems hooks)) in *.
  assert (Hperm : L ++ R ++ "delete" :: "rename" :: C ++ Q
                  ≡ₚ (L ++ ["delete"; "rename"]) ++ R ++ C ++ Q).
  { rewrite <- !(assoc_L (++)). f_equiv. simpl.
    by rewrite <- !Permutation_middle. }
  rewrite Hperm. apply NoDup_app. split; [exact Hown|]. split; [|exact Hnodup].
  intros x Hx Hext. apply (Hfresh x Hext).
  apply elem_of_app in Hx as [Hx | Hx]; [exact (Hsub x Hx)|].
  unfold ownIds. menu_elem Hx; subst x; menu_here.
Qed.

Lemma resource_menu_ids_distinct_witness :
  NoDup (menuIds
           (itemContextMenuItems
              (Resource exampleServer ∅ exampleOptions exampleHooks mounted
                 exampleProps))).
Proof.
  apply (resource_menu_ids_distinct exampleServer ∅ exampleOptions exampleHooks
           mounted exampleProps).
  - compute_done.
  - intros x Hx. simpl in Hx. unfold ownIds.
    menu_elem Hx; subst x; compute_done.
Defined.

Lemma wellSeparated_app_separator (afterSeparator : bool)
    (menu1 menu2 : ContextMenuItemsCollection) :
  wellSeparated afterSeparator (menu1 ++ ContextMenuItemSeparator :: menu2)
  = wellSeparated afterSeparator menu1 && wellSeparated true menu2.
Proof.
  revert afterSeparator.
  induction menu1 as [|[|item] menu1 IH]; intros afterSeparator; simpl.
  - reflexivity.
  - rewrite IH. by rewrite andb_assoc.
  - apply IH.
Qed.

Lemma lifecycle_wellSeparated (serverIsNotUp : bool) (resourceName : string)
    (resourceStatus : ResourceStatus)
    (resourceIsRunning isEnabled isAutorestartOnChangeEnabled : bool)
    (openCommandsOutput : Handler) :
  wellSeparated true
    (makeLifecycleContextMenuItems serverIsNotUp resourceName resourceStatus
       resourceIsRunning isEnabled isAutorestartOnChangeEnabled openCommandsOutput)
  = true.
Proof.
  unfold makeLifecycleContextMenuItems, push.
  by destruct resourceIsRunning,
       (numberIsTruthy (length (Object_values (watchCommands resourceStatus)))).
Qed.

(** X5: the lifecycle menu never starts or ends with a separator and never
    has two separators in a row; the item's menu has that property exactly
    when each of the three menus supplied by the explorer hooks has it (an
    empty one does not: its neighbours' separators then meet). *)
Theorem resource_menu_separators (ServerState : ServerStateT)
    (StatusState : gmap string ResourceStatus)
    (options : ProjectExplorerItemContext) (hooks : ItemHooks)
    (st : UiState) (props : ProjectItemProps) :
  let view := Resource ServerState StatusState options hooks st props in
  let lc :=
    useResourceLifecycle ServerState st (name (entry props))
      (resources (project props) !! name (entry props))
      (StatusState_get StatusState ("resource-" +:+ path (entry props))
         defaultResourceStatus) in
  wellSeparated true (lifecycleContextMenuItems lc) = true
  ∧ wellSeparated true (itemContextMenuItems view)
    = wellSeparated true (relocateTargetContextMenu hooks)
      && wellSeparated true (contextMenuItems hooks)
      && wellSeparated true (requiredContextMenuItems hooks).
Proof.
  intros view lc. subst view lc.
  split; [apply lifecycle_wellSeparated|].
  unfold Resource, useResourceLifecycle.
  cbn -[wellSeparated makeLifecycleContextMenuItems].
  rewrite !wellSeparated_app_separator, lifecycle_wellSeparated. simpl.
  rewrite wellSeparated_app_separator.
  by rewrite andb_assoc.
Qed.

(** ** What activating an entry does *)

(** X6: activating an entry of the lifecycle menu either sends exactly one
    message, about this resource, at the end of the outbox and leaves the
    local flags alone, or (the 'Watch commands output' entry) sends nothing
    and leaves the deleter and renamer flags alone. *)
Theorem lifecycle_entries_frame (ServerState : ServerStateT) (st : UiState)
    (resourceName : string) (resourceConfig : option ProjectResource)
    (resourceStatus : ResourceStatus) (item : ContextMenuItem) (st' : UiState) :
  MenuItem item
  ∈ lifecycleContextMenuItems
      (useResourceLifecycle ServerState st resourceName resourceConfig resourceStatus) →
  (id item = "open-watch-commands-output"
   ∧ outbox (onClick item st') = outbox st'
   ∧ deleterOpenCell (cells (onClick item st')) = deleterOpenCell (cells st')
   ∧ renamerOpenCell (cells (onClick item st')) = renamerOpenCell (cells st'))
  ∨ (∃ event payload,
       onClick item st'
       = {| cells := cells st'; outbox := outbox st' ++ [(event, payload)] |}
       ∧ payloadResource payload = resourceName).
Proof.
  menu_cases; intros Hin; menu_elem Hin;
    first [left; repeat split; reflexivity
          |right; do 2 eexists; split; reflexivity].
Qed.

Lemma lifecycle_entries_frame_witness :
  ∃ event payload,
    handleStop "chat" mounted
    = {| cells := cells mounted; outbox := outbox mounted ++ [(event, payload)] |}
    ∧ payloadResource payload = "chat".
Proof.
  assert (Hin : MenuItem {| id := "stop"; icon := stopIcon; text := "Stop";
                            disabled := Some true; onClick := handleStop "chat" |}
                ∈ lifecycleContextMenuItems exampleLifecycle).
  { vm_compute. menu_here. }
  destruct (lifecycle_entries_frame exampleServer mounted "chat" (Some exampleConfig)
              exampleStatus _ mounted Hin) as [(Hid & _) | Hsend].
  - discriminate Hid.
  - exact Hsend.
Defined.

(** X7: two connectivity stores that agree on whether the resource runs give
    lifecycle menus with the same entries, ids, icons, labels and handlers;
    [isUp] shows in the [disabled] fields only, and a handler does not look
    at it. *)
Theorem connectivity_only_disables (ServerState1 ServerState2 : ServerStateT)
    (st : UiState) (resourceName : string)
    (resourceConfig : option ProjectResource) (resourceStatus : ResourceStatus) :
  isResourceRunning ServerState1 resourceName
  = isResourceRunning ServerState2 resourceName →
  entryCore
  <$> lifecycleContextMenuItems
        (useResourceLifecycle ServerState1 st resourceName resourceConfig resourceStatus)
  = entryCore
    <$> lifecycleContextMenuItems
          (useResourceLifecycle ServerState2 st resourceName resourceConfig
             resourceStatus).
Proof.
  intros Hrun. unfold useResourceLifecycle, makeLifecycleContextMenuItems, push.
  simpl. rewrite Hrun.
  repeat match goal with
         | |- context [if ?b then _ else _] => destruct b
         end; reflexivity.
Qed.

Lemma connectivity_only_disables_witness :
  entryCore <$> lifecycleContextMenuItems exampleLifecycle
  = entryCore
    <$> lifecycleContextMenuItems
          (useResourceLifecycle
             {| isUp := true; isResourceRunning := fun _ => true |}
             mounted "chat" (Some exampleConfig) exampleStatus).
Proof.
  exact (connectivity_only_disables exampleServer
           {| isUp := true; isResourceRunning := fun _ => true |}
           mounted "chat" (Some exampleConfig) exampleStatus eq_refl).
Defined.

(** X8: the enabled toggle sends the value fixed at render time: activated
    twice within one render it sends the same request twice, and only the
    menu rendered from the updated config sends the opposite value. *)
Theorem toggle_enabled_needs_rerender (ServerState : ServerStateT) (st : UiState)
    (resourceName : string) (resourceConfig : option ProjectResource)
    (resourceStatus : ResourceStatus) (restart : option bool) :
  let hook := useResourceLifecycle ServerState st resourceName in
  let message (value : bool) :=
    (project_setResourceConfig,
     PayloadSetResourceConfig
       {| resourceName := resourceName;
          config := {| enabled := Some value; restartOnChange := None |} |}) in
  let current := isEnabled resourceConfig in
  let updated :=
    Some {| enabled := Some (negb current); restartOnChange := restart |} in
  (∀ item st',
     MenuItem item ∈ lifecycleContextMenuItems (hook resourceConfig resourceStatus) →
     id item = "toggle-enabled" →
     outbox (onClick item (onClick item st'))
     = outbox st' ++ [message (negb current); message (negb current)])
  ∧ (∀ item st',
       MenuItem item ∈ lifecycleContextMenuItems (hook updated resourceStatus) →
       id item = "toggle-enabled" →
       outbox (onClick item st') = outbox st' ++ [message current]).
Proof.
  intros hook message current updated. subst hook message current updated.
  split.
  - intros item st'. menu_cases; intros Hin Hid; menu_elem Hin;
      try discriminate Hid; by rewrite <- app_assoc.
  - intros item st'.
    unfold useResourceLifecycle, makeLifecycleContextMenuItems, push. simpl.
    change (isEnabled (Some {| enabled := Some (negb (isEnabled resourceConfig));
                               restartOnChange := restart |}))
      with (negb (isEnabled resourceConfig)).
    destruct (isEnabled resourceConfig); simpl;
      repeat match goal with
             | |- context [if ?b then _ else _] => destruct b
             end; simpl; intros Hin Hid; menu_elem Hin;
      try discriminate Hid; reflexivity.
Qed.

Lemma toggle_enabled_needs_rerender_witness :
  let item :=
    {| id := "toggle-enabled"; icon := disabledResourceIcon;
       text := "Disable resource"; disabled := None;
       onClick := handleToggleEnabled "chat" true |} in
  let message :=
    (project_setResourceConfig,
     PayloadSetResourceConfig
       {| resourceName := "chat";
          config := {| enabled := Some false; restartOnChange := None |} |}) in
  outbox (onClick item (onClick item mounted)) = [message; message].
Proof.
  intros item message.
  assert (Hin : MenuItem item ∈ lifecycleContextMenuItems exampleLifecycle).
  { vm_compute. menu_here. }
  exact (proj1 (toggle_enabled_needs_rerender exampleServer mounted "chat"
                  (Some exampleConfig) exampleStatus None)
           item mounted Hin eq_refl).
Defined.

(** ** Missing config and missing status *)

(** X9: for a resource that has no entry in [project.resources] the icon is
    titled 'Disabled', the item's menu starts with the lifecycle menu of an
    absent config, and there both toggles offer to enable: they are labelled
    'Enable ...' and send [enabled: true], resp. [restartOnChange: true]. *)
Theorem resource_without_config (ServerState : ServerStateT)
    (StatusState : gmap string ResourceStatus)
    (options : ProjectExplorerItemContext) (hooks : ItemHooks)
    (st : UiState) (props : ProjectItemProps) :
  resources (project props) !! name (entry props) = None →
  let view := Resource ServerState StatusState options hooks st props in
  let lc :=
    useResourceLifecycle ServerState st (name (entry props)) None
      (StatusState_get StatusState ("resource-" +:+ path (entry props))
         defaultResourceStatus) in
  let message (patch : ProjectResource) :=
    (project_setResourceConfig,
     PayloadSetResourceConfig
       {| resourceName := name (entry props); config := patch |}) in
  nodeTitle (iconNode view) = Some "Disabled"
  ∧ (∃ rest, itemContextMenuItems view = lifecycleContextMenuItems lc ++ rest)
  ∧ ∀ item st', MenuItem item ∈ lifecycleContextMenuItems lc →
      (id item = "toggle-enabled" →
       text item = "Enable resource"
       ∧ outbox (onClick item st')
         = outbox st' ++ [message {| enabled := Some true; restartOnChange := None |}])
      ∧ (id item = "toggle-autorestart-enabled" →
         text item = "Enable restart on change"
         ∧ outbox (onClick item st')
           = outbox st'
             ++ [message {| enabled := None; restartOnChange := Some true |}]).
Proof.
  intros Hnone view lc message. subst view lc message.
  unfold Resource. rewrite Hnone. simpl.
  split; [reflexivity|]. split; [eexists; reflexivity|].
  intros item st'.
  unfold makeLifecycleContextMenuItems, push, isEnabled, isAutorestartOnChangeEnabled.
  simpl.
  repeat match goal with
         | |- context [if ?b then _ else _] => destruct b
         end; simpl; intros Hin; menu_elem Hin;
    (split; intros Hid; try discriminate Hid); split; reflexivity.
Qed.

Lemma resource_without_config_witness :
  nodeTitle
    (iconNode (Resource exampleServer ∅ exampleOptions exampleHooks mounted
                 exampleOrphanProps))
  = Some "Disabled".
Proof.
  exact (proj1 (resource_without_config exampleServer ∅ exampleOptions exampleHooks
                  mounted exampleOrphanProps (lookup_empty _))).
Defined.

(** X10: for a resource without an entry in the status cache the status
    node shows no indicator, the lifecycle part of the item's menu has no
    'Watch commands output' entry, and the commands output modal, if open,
    is handed the default (empty) status. *)
Theorem resource_without_status (ServerState : ServerStateT)
    (StatusState : gmap string ResourceStatus)
    (options : ProjectExplorerItemContext) (hooks : ItemHooks)
    (st : UiState) (props : ProjectItemProps) :
  StatusState !! ("resource-" +:+ path (entry props)) = None →
  let view := Resource ServerState StatusState options hooks st props in
  let lc :=
    useResourceLifecycle ServerState st (name (entry props))
      (resources (project props) !! name (entry props)) defaultResourceStatus in
  statusNode view = RElement "div" [itemStatus] None [RNull]
  ∧ (∃ rest, itemContextMenuItems view = lifecycleContextMenuItems lc ++ rest)
  ∧ (∀ item, MenuItem item ∈ lifecycleContextMenuItems lc →
             id item ≠ "open-watch-commands-output")
  ∧ (∀ p, commandsOutputModal view = Some p →
          modalStatus p = Some defaultResourceStatus).
Proof.
  intros Hnone view lc. subst view lc.
  unfold Resource, StatusState_get. rewrite Hnone. simpl.
  split; [reflexivity|]. split; [eexists; reflexivity|]. split.
  - intros item. unfold makeLifecycleContextMenuItems, push, defaultResourceStatus.
    simpl. rewrite Object_values_empty. simpl.
    repeat match goal with
           | |- context [if ?b then _ else _] => destruct b
           end; simpl; intros Hin; menu_elem Hin; discriminate.
  - intros p [_ ->]%renderWhen_Some. reflexivity.
Qed.

Lemma resource_without_status_witness :
  statusNode (Resource exampleServer ∅ exampleOptions exampleHooks mounted exampleProps)
  = RElement "div" [itemStatus] None [RNull].
Proof.
  exact (proj1 (resource_without_status exampleServer ∅ exampleOptions exampleHooks
                  mounted exampleProps (lookup_empty _))).
Defined.

(** ** What the view reads *)



(** X12: the icon of the item is titled 'Enabled' iff the config of the
    resource is present with [enabled: true], and 'Disabled' otherwise; it
    carries the running class iff the connectivity store reports the
    resource running, and always the base icon class. *)
Theorem resource_icon_sources (ServerState : ServerStateT)
    (StatusState : gmap string ResourceStatus)
    (options : ProjectExplorerItemContext) (hooks : ItemHooks)
    (st : UiState) (props : ProjectItemProps) :
  let node := iconNode (Resource ServerState StatusState options hooks st props) in
  (nodeTitle node = Some "Enabled"
   ↔ ∃ c, resources (project props) !! name (entry props) = Some c
          ∧ enabled c = Some true)
  ∧ (nodeTitle node = Some "Enabled" ∨ nodeTitle node = Some "Disabled")
  ∧ (s_running ∈ nodeClassName node
     ↔ isResourceRunning ServerState (name (entry props)) = true)
  ∧ itemIcon ∈ nodeClassName node.
Proof.
  intros node. subst node.
  unfold Resource, useResourceLifecycle, ResourceIcon, classnames. simpl.
  split; [|split; [|split]].
  - rewrite <- optionalChain_Some, <- toBoolean_true.
    fold (isEnabled (resources (project props) !! name (entry props))).
    destruct (isEnabled _); split; congruence.
  - destruct (isEnabled _); auto.
  - destruct (isResourceRunning _ _); split; try done.
    + intros _. menu_here.
    + intros Hin. menu_elem Hin.
  - destruct (isResourceRunning _ _); menu_here.
Qed.

(** ** The watch-commands indicator *)




(** ** Opening and closing a modal *)

(** X15: the 'delete' and 'rename' entries of the item's menu carry the
    [disableAssetDelete] and [disableAssetRename] options as their
    [disabled] field.  Activating 'delete' renders the deleter with the path
    and name of the entry; its [onClose] removes it again and nothing has
    been sent meanwhile.  Activating 'rename' while the deleter is open
    leaves both modals open. *)
Theorem modal_open_close_round_trip (ServerState : ServerStateT)
    (StatusState : gmap string ResourceStatus)
    (options : ProjectExplorerItemContext) (hooks : ItemHooks)
    (props : ProjectItemProps) (st : UiState) :
  let view st := Resource ServerState StatusState options hooks st props in
  let lifecycle :=
    useResourceLifecycle ServerState st (name (entry props))
      (resources (project props) !! name (entry props))
      (StatusState_get StatusState ("resource-" +:+ path (entry props))
         defaultResourceStatus) in
  ∃ del ren,
    itemContextMenuItems (view st)
    = lifecycleContextMenuItems lifecycle
      ++ [ContextMenuItemSeparator] ++ relocateTargetContextMenu hooks
      ++ [ContextMenuItemSeparator; MenuItem del; MenuItem ren;
          ContextMenuItemSeparator]
      ++ contextMenuItems hooks
      ++ [ContextMenuItemSeparator] ++ requiredContextMenuItems hooks
    ∧ id del = "delete" ∧ disabled del = disableAssetDelete options
    ∧ id ren = "rename" ∧ disabled ren = disableAssetRename options
    ∧ (∃ p, deleterModal (view (onClick del st)) = Some p
            ∧ modalPath p = Some (path (entry props))
            ∧ modalName p = name (entry props)
            ∧ deleterModal (view (onClose p (onClick del st))) = None
            ∧ outbox (onClose p (onClick del st)) = outbox st)
    ∧ is_Some (deleterModal (view (onClick ren (onClick del st))))
    ∧ is_Some (renamerModal (view (onClick ren (onClick del st)))).
Proof.
  intros view lifecycle. subst view lifecycle. unfold Resource. simpl.
  do 2 eexists. split; [reflexivity|].
  do 4 (split; [reflexivity|]). simpl.
  split; [|split; by eexists].
  eexists. split; [reflexivity|]. simpl. repeat split; reflexivity.
Qed.
